(** * custom_logging: the Ansible callback plugin merizrizal.utils.custom_logging

    A shallow embedding of [plugins/callback/custom_logging.py] and the
    properties of its log-path construction, elapsed-time report, host-result
    records, recap and column padding.

    Python [str] values are [string]s; Python [int]s are [Z]; the plugin
    object is a record threaded through a state-and-exception monad; the
    clock ([datetime.now()]) is an explicit argument of whatever reads it. *)

From Stdlib Require Import ZArith List String Ascii Bool Lia.
From Stdlib Require Import Permutation Sorted DecimalString OrderedTypeEx.
Import ListNotations.
Open Scope list_scope.
Open Scope string_scope.
Open Scope Z_scope.

(** ** Python strings *)

Definition chr (n : nat) : string := String (ascii_of_nat n) "".

(** The two line ends the plugin writes: ["\r\n"] and ["\n\r"]. *)
Definition CRLF : string := chr 13 ++ chr 10.
Definition LFCR : string := chr 10 ++ chr 13.

(** [s * n] on a [str]: a count below one gives the empty string. *)
Fixpoint str_mul_nat (s : string) (n : nat) : string :=
  match n with
  | O => ""
  | S k => s ++ str_mul_nat s k
  end.

Definition str_mul (s : string) (n : Z) : string := str_mul_nat s (Z.to_nat n).

(** [str(n)] for an [int]. *)
Definition str_of_int (n : Z) : string := NilZero.string_of_int (Z.to_int n).

(** [s.split(sep)] for a one-character separator: always at least one field. *)
Fixpoint split (sep : ascii) (s : string) : list string :=
  match s with
  | "" => [""]
  | String c s' =>
      if Ascii.eqb c sep then "" :: split sep s'
      else match split sep s' with
           | w :: ws => String c w :: ws
           | [] => [String c ""]
           end
  end.

(** [s.rfind(c)]: the index of the last [c], [-1] when there is none. *)
Fixpoint rfind (c : ascii) (s : string) : Z :=
  match s with
  | "" => -1
  | String a s' =>
      let r := rfind c s' in
      if 0 <=? r then r + 1 else if Ascii.eqb a c then 0 else -1
  end.

(** [sep.join(parts)]. *)
Fixpoint join (sep : string) (l : list string) : string :=
  match l with
  | [] => ""
  | [x] => x
  | x :: rest => x ++ sep ++ join sep rest
  end.

Fixpoint has_char (c : ascii) (s : string) : bool :=
  match s with
  | "" => false
  | String a s' => Ascii.eqb a c || has_char c s'
  end.

(** Printable ASCII: the characters [0x20 .. 0x7e]. *)
Definition printable_char (c : ascii) : bool :=
  let n := nat_of_ascii c in (32 <=? n)%nat && (n <=? 126)%nat.

Fixpoint printable (s : string) : bool :=
  match s with
  | "" => true
  | String c s' => printable_char c && printable s'
  end.

(** ** Python values and exceptions *)

(** The values the plugin formats: host names and banners are [str], the
    tallies of a summary are [int]. *)
Inductive pyval : Type :=
| PStr (s : string)
| PInt (n : Z).

(** [str(v)], which is also what an f-string field [{v}] renders. *)
Definition py_str (v : pyval) : string :=
  match v with
  | PStr s => s
  | PInt n => str_of_int n
  end.

Inductive exn : Type :=
| TypeError (msg : string)
| AttributeError (attribute : string)
| ReError (pattern : string).

Inductive result (A : Type) : Type :=
| Ok (a : A)
| Raise (e : exn).
Arguments Ok {A} a.
Arguments Raise {A} e.

(** ** datetime *)

Record datetime : Type := mk_datetime {
  year : Z; month : Z; day : Z;
  hour : Z; minute : Z; second : Z; microsecond : Z
}.

Definition is_leap (y : Z) : bool :=
  (y mod 4 =? 0) && (negb (y mod 100 =? 0) || (y mod 400 =? 0)).

Definition days_before_year (y : Z) : Z :=
  let y1 := y - 1 in y1 * 365 + y1 / 4 - y1 / 100 + y1 / 400.

Definition DAYS_BEFORE_MONTH : list Z :=
  [0; 31; 59; 90; 120; 151; 181; 212; 243; 273; 304; 334].

Definition days_before_month (y m : Z) : Z :=
  nth (Z.to_nat (m - 1)) DAYS_BEFORE_MONTH 0
  + (if (2 <? m) && is_leap y then 1 else 0).

(** [d.toordinal()]: the proleptic Gregorian day number, 0001-01-01 being 1. *)
Definition toordinal (d : datetime) : Z :=
  days_before_year (year d) + days_before_month (year d) (month d) + day d.

(** A datetime the [datetime] class can hold, with a four-digit year (the
    years on which every platform's [%Y] agrees). *)
Definition valid_datetime (d : datetime) : Prop :=
  1000 <= year d <= 9999 /\ 1 <= month d <= 12 /\ 1 <= day d <= 31 /\
  0 <= hour d < 24 /\ 0 <= minute d < 60 /\ 0 <= second d < 60 /\
  0 <= microsecond d < 1000000.

Definition digit (n : Z) : ascii := ascii_of_nat (48 + Z.to_nat n).

(** [n] in decimal on exactly [w] digits, zero-filled on the left: what
    [%m], [%d], [%H], [%M], [%S] (two digits), [%Y] (four) and [%f] (six)
    print for a field in range. *)
Fixpoint zfill (w : nat) (n : Z) : string :=
  match w with
  | O => ""
  | S w' => String (digit ((n / 10 ^ Z.of_nat w') mod 10)) (zfill w' n)
  end.

(** [d.strftime('%Y-%m-%d-%H-%M-%S-%f')]. *)
Definition strftime_suffix (d : datetime) : string :=
  zfill 4 (year d) ++ "-" ++ zfill 2 (month d) ++ "-" ++ zfill 2 (day d) ++ "-"
  ++ zfill 2 (hour d) ++ "-" ++ zfill 2 (minute d) ++ "-" ++ zfill 2 (second d)
  ++ "-" ++ zfill 6 (microsecond d).

(** [d.strftime('%Y-%m-%d %H:%M:%S')]. *)
Definition strftime_time (d : datetime) : string :=
  zfill 4 (year d) ++ "-" ++ zfill 2 (month d) ++ "-" ++ zfill 2 (day d) ++ " "
  ++ zfill 2 (hour d) ++ ":" ++ zfill 2 (minute d) ++ ":" ++ zfill 2 (second d).

(** A [timedelta], normalised as its constructor leaves it:
    [0 <= seconds < 86400] and [0 <= microseconds < 1000000]. *)
Record timedelta : Type := mk_timedelta {
  td_days : Z; td_seconds : Z; td_microseconds : Z
}.

(** [timedelta(days, seconds, microseconds)] on integers: Python's [divmod]
    floors, as [Z.div] and [Z.modulo] do for a positive divisor. *)
Definition make_timedelta (days seconds microseconds : Z) : timedelta :=
  let s := seconds + microseconds / 1000000 in
  {| td_days := days + s / 86400;
     td_seconds := s mod 86400;
     td_microseconds := microseconds mod 1000000 |}.

Definition seconds_of_day (d : datetime) : Z :=
  second d + minute d * 60 + hour d * 3600.

(** [a - b] on two datetimes. *)
Definition datetime_sub (a b : datetime) : timedelta :=
  make_timedelta (toordinal a - toordinal b)
                 (seconds_of_day a - seconds_of_day b)
                 (microsecond a - microsecond b).

(** ** pathlib (POSIX flavour) *)

(** A parsed path: the root (empty, ["/"] or ["//"]) and the components
    after it, none of them empty or ["."]. *)
Record Path : Type := mk_Path {
  root : string;
  parts : list string
}.

Definition sep : ascii := "/"%char.

Definition keep_part (x : string) : bool :=
  negb (String.eqb x "") && negb (String.eqb x ".").

Definition starts_with_sep (s : string) : bool :=
  match s with
  | String c _ => Ascii.eqb c sep
  | "" => false
  end.

(** [s[1:]]. *)
Definition drop1 (s : string) : string :=
  match s with
  | String _ rest => rest
  | "" => ""
  end.

(** [Path(s)]: the root is [''] without a leading slash, ['//'] for exactly
    two leading slashes and ['/'] otherwise; the components are the fields
    between slashes, the empty ones and ['.'] dropped. *)
Definition parse_path (s : string) : Path :=
  if starts_with_sep s then
    let s1 := drop1 s in
    if starts_with_sep s1 && negb (starts_with_sep (drop1 s1))
    then mk_Path "//" (filter keep_part (split sep (drop1 s1)))
    else mk_Path "/" (filter keep_part (split sep s1))
  else mk_Path "" (filter keep_part (split sep s)).

(** [str(p)]. *)
Definition path_str (p : Path) : string :=
  let s := root p ++ join "/" (parts p) in
  if String.eqb s "" then "." else s.

(** [p.joinpath(q)]: a rooted [q] replaces [p]. *)
Definition joinpath (p q : Path) : Path :=
  if String.eqb (root q) "" then mk_Path (root p) (parts p ++ parts q)%list
  else q.

(** [p.parent]: a path with no component is its own parent. *)
Definition parent (p : Path) : Path :=
  match parts p with
  | [] => p
  | _ => mk_Path (root p) (removelast (parts p))
  end.

(** [p.name]: the last component, [''] when there is none. *)
Definition name (p : Path) : string := last (parts p) "".

(** [p.stem]: the name without its last suffix; a leading or a final dot
    starts no suffix. *)
Definition stem (p : Path) : string :=
  let n := name p in
  let i := rfind "."%char n in
  if (0 <? i) && (i <? Z.of_nat (String.length n) - 1)
  then substring 0 (Z.to_nat i) n
  else n.

(** ** Reference collaborators

    The plugin calls [ansible.utils.display.get_text_width] and [re.sub];
    the development is parametric in both.  The two engines below are the
    instances the closed examples run on: the width of printable ASCII text,
    and regular expressions made of literal characters, escaped punctuation
    and [.] only. *)

(** The columns of a printable-ASCII text: one per character. *)
Definition ascii_columns (s : string) : Z := Z.of_nat (String.length s).

Inductive atom : Type :=
| Lit (c : ascii)
| AnyChar.

Definition is_alnum (c : ascii) : bool :=
  let n := nat_of_ascii c in
  ((48 <=? n) && (n <=? 57) || (65 <=? n) && (n <=? 90) || (97 <=? n) && (n <=? 122))%nat.

(** The characters with a meaning of their own in a pattern. *)
Definition is_meta (c : ascii) : bool := has_char c ".^$*+?{}[]\|()".

(** A pattern of the fragment, compiled; [None] for any other pattern. *)
Fixpoint re_compile (p : string) : option (list atom) :=
  match p with
  | "" => Some []
  | String "\" "" => None
  | String "\" (String c rest) =>
      if printable_char c && negb (is_alnum c)
      then option_map (cons (Lit c)) (re_compile rest)
      else None
  | String "." rest => option_map (cons AnyChar) (re_compile rest)
  | String c rest =>
      if is_meta c then None else option_map (cons (Lit c)) (re_compile rest)
  end.

(** The compiled pattern matches a prefix of [s]. *)
Fixpoint match_here (r : list atom) (s : string) : bool :=
  match r, s with
  | [], _ => true
  | _ :: _, "" => false
  | Lit c :: r', String a s' => Ascii.eqb a c && match_here r' s'
  | AnyChar :: r', String a s' => negb (Ascii.eqb a (ascii_of_nat 10)) && match_here r' s'
  end.

(** [re.search]: the pattern matches somewhere in [s]. *)
Fixpoint search_from (r : list atom) (s : string) : bool :=
  match_here r s ||
  match s with
  | "" => false
  | String _ s' => search_from r s'
  end.

(** [re.sub] with a replacement free of backslashes: the leftmost matches,
    not overlapping, each replaced by [repl]; [skip] counts the characters of
    the match under way that are still to be dropped.  The empty pattern
    matches before every character and at the end. *)
Fixpoint sub_from (r : list atom) (repl s : string) (skip : nat) : string :=
  match s with
  | "" => match r with [] => repl | _ :: _ => "" end
  | String c s' =>
      match skip with
      | S k => sub_from r repl s' k
      | O =>
          if match_here r s then
            match r with
            | [] => repl ++ String c (sub_from r repl s' 0)
            | _ :: r' => repl ++ sub_from r repl s' (List.length r')
            end
          else String c (sub_from r repl s' 0)
      end
  end.

Definition frag_sub (pattern repl s : string) : result string :=
  match re_compile pattern with
  | Some r => Ok (sub_from r repl s 0)
  | None => Raise (ReError pattern)
  end.

Definition frag_search (pattern s : string) : result bool :=
  match re_compile pattern with
  | Some r => Ok (search_from r s)
  | None => Raise (ReError pattern)
  end.

(** ** The plugin *)

(** [sorted(l)] on strings: Python compares [str] by code point, which on
    the characters of [string] is [String.leb]. *)
Fixpoint insort (x : string) (l : list string) : list string :=
  match l with
  | [] => [x]
  | y :: l' => if String.leb x y then x :: l else y :: insort x l'
  end.

Fixpoint sorted (l : list string) : list string :=
  match l with
  | [] => []
  | x :: l' => insort x (sorted l')
  end.

(** [d.get(k)] on a dict kept as an association list. *)
Fixpoint dict_get {V : Type} (k : string) (d : list (string * V)) : option V :=
  match d with
  | [] => None
  | (k', v) :: d' => if String.eqb k k' then Some v else dict_get k d'
  end.

(** What [stats.summarize(host)] returns. *)
Record Summary : Type := mk_Summary {
  s_ok : Z; s_changed : Z; s_unreachable : Z; s_failures : Z;
  s_skipped : Z; s_rescued : Z; s_ignored : Z
}.

(** [AggregateStats]: the keys of [processed] in insertion order (a dict:
    no host twice) and the tallies of each host. *)
Record AggregateStats : Type := mk_AggregateStats {
  processed : list string;
  summarize : string -> Summary
}.

(** The plugin object, with the class attribute [LOG_FILE_SUFFIX], and what
    the plugin has written so far: the messages handed to [logger.info]
    (oldest first), the file [logging.basicConfig] installed, the
    directories made, and the banners shown on the display.
    [log_directory] exists once [set_options] has run; [path] is [''] until
    the playbook starts, [None] here. *)
Record CallbackModule : Type := mk_CallbackModule {
  LOG_FILE_SUFFIX : string;
  log_directory : option string;
  path : option Path;
  playbook : string;
  start_time_now : datetime;
  start_time : string;
  logged : list string;
  log_file : option Path;
  made_dirs : list Path;
  banners : list string
}.

(** State and exceptions. *)
Definition M (A : Type) : Type := CallbackModule -> result (A * CallbackModule).

Definition ret {A : Type} (a : A) : M A := fun self => Ok (a, self).

Definition bind {A B : Type} (m : M A) (f : A -> M B) : M B :=
  fun self =>
    match m self with
    | Ok (a, self') => f a self'
    | Raise e => Raise e
    end.

Definition lift {A : Type} (r : result A) : M A :=
  fun self =>
    match r with
    | Ok a => Ok (a, self)
    | Raise e => Raise e
    end.

Notation "x <- m ;; k" := (bind m (fun x => k))
  (at level 61, m at next level, right associativity).
Notation "m ;;; k" := (bind m (fun _ => k))
  (at level 61, right associativity).

Definition get_self : M CallbackModule := fun self => Ok (self, self).

Definition set_log_directory (d : string) : M unit := fun self =>
  Ok (tt, mk_CallbackModule (LOG_FILE_SUFFIX self) (Some d) (path self) (playbook self)
            (start_time_now self) (start_time self) (logged self) (log_file self)
            (made_dirs self) (banners self)).

Definition set_playbook (p : string) : M unit := fun self =>
  Ok (tt, mk_CallbackModule (LOG_FILE_SUFFIX self) (log_directory self) (path self) p
            (start_time_now self) (start_time self) (logged self) (log_file self)
            (made_dirs self) (banners self)).

Definition set_path (p : Path) : M unit := fun self =>
  Ok (tt, mk_CallbackModule (LOG_FILE_SUFFIX self) (log_directory self) (Some p)
            (playbook self) (start_time_now self) (start_time self) (logged self)
            (log_file self) (made_dirs self) (banners self)).

(** The plugin after the messages [msgs] went to the logger. *)
Definition add_logged (msgs : list string) (self : CallbackModule) : CallbackModule :=
  mk_CallbackModule (LOG_FILE_SUFFIX self) (log_directory self) (path self)
    (playbook self) (start_time_now self) (start_time self)
    (logged self ++ msgs)%list (log_file self) (made_dirs self) (banners self).

(** [self.logger.info(msg)]. *)
Definition logger_info (msg : string) : M unit := fun self =>
  Ok (tt, add_logged [msg] self).

(** [makedirs_safe(d)]. *)
Definition makedirs_safe (d : Path) : M unit := fun self =>
  Ok (tt, mk_CallbackModule (LOG_FILE_SUFFIX self) (log_directory self) (path self)
            (playbook self) (start_time_now self) (start_time self) (logged self)
            (log_file self) (made_dirs self ++ [d])%list (banners self)).

(** [logging.basicConfig(filename=p, ...)]: does nothing once the root
    logger has a handler. *)
Definition basicConfig (p : Path) : M unit := fun self =>
  Ok (tt, mk_CallbackModule (LOG_FILE_SUFFIX self) (log_directory self) (path self)
            (playbook self) (start_time_now self) (start_time self) (logged self)
            (match log_file self with Some f => Some f | None => Some p end)
            (made_dirs self) (banners self)).

(** [self._display.banner(msg)]. *)
Definition display_banner (msg : string) : M unit := fun self =>
  Ok (tt, mk_CallbackModule (LOG_FILE_SUFFIX self) (log_directory self) (path self)
            (playbook self) (start_time_now self) (start_time self) (logged self)
            (log_file self) (made_dirs self) (banners self ++ [msg])%list).

Definition SEPARATOR : string := str_mul "=" 150.

(** The mask token of [_log]: 33 asterisks. *)
Definition MASK : string := "*********************************".

Definition RECAP_FORMAT
  (host ok changed unreachable failures skipped rescued ignored : string) : string :=
  host ++ " : ok=" ++ ok ++ "  changed=" ++ changed
  ++ "  unreachable=" ++ unreachable ++ "  failed=" ++ failures
  ++ "  skipped=" ++ skipped ++ "  rescued=" ++ rescued ++ "  ignored=" ++ ignored.

(** The class body, run once when the module is loaded: [LOG_FILE_SUFFIX]
    is the clock read at that moment. *)
Definition class_LOG_FILE_SUFFIX (load_now : datetime) : string :=
  strftime_suffix load_now.

(** [CallbackModule()], on a class whose body ran at [load_now]; the
    constructor reads the clock again for [start_time_now]. *)
Definition __init__ (load_now now : datetime) : CallbackModule :=
  mk_CallbackModule (class_LOG_FILE_SUFFIX load_now) None None "" now (strftime_time now)
                    [] None [] [].

(** [set_options], given the value of the option [log_directory]. *)
Definition set_options (option_log_directory : string) : M unit :=
  set_log_directory option_log_directory.

(** The five result events, with the argument [ignore_errors] of the first. *)
Inductive runner_event : Type :=
| on_failed (ignore_errors : bool)
| on_ok
| on_skipped
| on_unreachable
| on_async_failed.

(** The category each handler passes to [_log]. *)
Definition category_of (ev : runner_event) : string :=
  match ev with
  | on_failed ignore_errors =>
      let ignore_text := if ignore_errors then ".....ignoring" else "" in
      "FAILED " ++ ignore_text
  | on_ok => "OK"
  | on_skipped => "SKIPPED"
  | on_unreachable => "UNREACHABLE"
  | on_async_failed => "ASYNC_FAILED"
  end.

(** The spec's enumeration of categories. *)
Definition CATEGORIES : list string :=
  ["OK"; "FAILED"; "SKIPPED"; "UNREACHABLE"; "ASYNC_FAILED"].

(** [self.log_directory]: the attribute exists once [set_options] has run. *)
Definition get_log_directory : M string := fun self =>
  match log_directory self with
  | Some d => Ok (d, self)
  | None => Raise (AttributeError "log_directory")
  end.

(** [runtime.seconds] split as [_write_time_calculation] does. *)
Definition hours_minutes_seconds (runtime : timedelta) : Z * Z * Z :=
  let hours := td_seconds runtime / 3600 in
  let minutes := (td_seconds runtime / 60) mod 60 in
  let seconds := td_seconds runtime mod 60 in
  (hours, minutes, seconds).

(** [for x in l: body(x)]. *)
Fixpoint for_each {A : Type} (l : list A) (body : A -> M unit) : M unit :=
  match l with
  | [] => ret tt
  | x :: l' => body x ;;; for_each l' body
  end.

Section Plugin.

(** [ansible.utils.display.get_text_width] on a [str]: its number of
    columns. *)
Variable text_width : string -> Z.

(** [re.sub(pattern, repl, string)]. *)
Variable re_sub : string -> string -> string -> result string.

(** The type of [result._result] and [json.dumps] on it. *)
Variable json_value : Type.
Variable json_dumps : json_value -> result string.

(** What [_log] reads of a [TaskResult]: [result._result], the dict
    [result._task.vars] restricted to list-valued variables, and
    [result._host.get_name()]. *)
Record TaskResult : Type := mk_TaskResult {
  _result : json_value;
  task_vars : list (string * list string);
  host_name : string
}.

(** [get_text_width] refuses anything that is not text. *)
Definition get_text_width (text : pyval) : result Z :=
  match text with
  | PStr s => Ok (text_width s)
  | PInt _ => Raise (TypeError "get_text_width requires text")
  end.

Definition _write_text_with_tab (text : pyval) (width : Z) (char : string)
  : result string :=
  match get_text_width (PStr (py_str text)) with
  | Ok w =>
      let length := width - w in
      Ok (py_str text ++ str_mul char length)
  | Raise e => Raise e
  end.

(** The loop of [_log] over the masks: [data = re.sub(mask, MASK, data)]
    for each mask in turn. *)
Fixpoint redact (data : string) (masks : list string) : result string :=
  match masks with
  | [] => Ok data
  | mask :: rest =>
      match re_sub mask MASK data with
      | Ok data' => redact data' rest
      | Raise e => Raise e
      end
  end.

(** The data [_log] writes: the masks apply when [vars] is a non-empty
    dict whose [custom_logging_mask] is a non-empty list. *)
Definition masked_data (vars : list (string * list string)) (data : string)
  : result string :=
  match dict_get "custom_logging_mask" vars with
  | Some (mask :: rest) => redact data (mask :: rest)
  | _ => Ok data
  end.

Definition _log (result : TaskResult) (category : string) : M unit :=
  data <- lift (json_dumps (_result result)) ;;
  data <- lift (masked_data (task_vars result) data) ;;
  host <- lift (_write_text_with_tab (PStr (host_name result)) 18 " ") ;;
  logger_info (host ++ " => " ++ category) ;;;
  logger_info (data ++ " " ++ CRLF).

(** [v2_runner_on_failed], [v2_runner_on_ok], [v2_runner_on_skipped],
    [v2_runner_on_unreachable] and [v2_runner_on_async_failed]. *)
Definition v2_runner_on (ev : runner_event) (result : TaskResult) : M unit :=
  _log result (category_of ev).

Definition v2_playbook_on_task_start (task_name : string) : M unit :=
  logger_info ("BEGIN TASK [" ++ task_name ++ "]") ;;;
  logger_info SEPARATOR.

Definition _make_log_file_path : M unit :=
  self <- get_self ;;
  let playbook_path := parse_path (playbook self) in
  dir <- get_log_directory ;;
  let log_subdirectory := joinpath (parse_path dir) (parent playbook_path) in
  makedirs_safe log_subdirectory ;;;
  let p := joinpath log_subdirectory
             (parse_path (stem playbook_path ++ "-" ++ LOG_FILE_SUFFIX self ++ ".log")) in
  set_path p ;;;
  basicConfig p.

Definition v2_playbook_on_start (file_name : string) : M unit :=
  set_playbook file_name ;;;
  _make_log_file_path ;;;
  self <- get_self ;;
  logger_info ("PLAYBOOK [" ++ playbook self ++ "] " ++ CRLF).

(** The recap line of one host. *)
Definition recap_msg (stats : AggregateStats) (host : string) : M string :=
  let summary := summarize stats host in
  h <- lift (_write_text_with_tab (PStr host) 20 " ") ;;
  ok <- lift (_write_text_with_tab (PInt (s_ok summary)) 4 " ") ;;
  changed <- lift (_write_text_with_tab (PInt (s_changed summary)) 4 " ") ;;
  unreachable <- lift (_write_text_with_tab (PInt (s_unreachable summary)) 4 " ") ;;
  failures <- lift (_write_text_with_tab (PInt (s_failures summary)) 4 " ") ;;
  skipped <- lift (_write_text_with_tab (PInt (s_skipped summary)) 4 " ") ;;
  rescued <- lift (_write_text_with_tab (PInt (s_rescued summary)) 4 " ") ;;
  ignored <- lift (_write_text_with_tab (PInt (s_ignored summary)) 4 " ") ;;
  ret (RECAP_FORMAT h ok changed unreachable failures skipped rescued ignored).

Definition _write_summary (stats : AggregateStats) : M unit :=
  let hosts := sorted (processed stats) in
  for_each hosts (fun host =>
    msg <- recap_msg stats host ;;
    logger_info msg).

Definition _write_time_calculation (end_time_now : datetime) : M unit :=
  self <- get_self ;;
  let end_time := strftime_time end_time_now in
  t <- lift (_write_text_with_tab (PStr "Playbook was started") 20 " ") ;;
  let start_text := t ++ " => " ++ start_time self in
  t <- lift (_write_text_with_tab (PStr "Playbook finished") 20 " ") ;;
  let finish_text := t ++ " => " ++ end_time in
  let runtime := datetime_sub end_time_now (start_time_now self) in
  let '(hours, minutes, seconds) := hours_minutes_seconds runtime in
  logger_info start_text ;;;
  logger_info finish_text ;;;
  logger_info ("Playbook run took " ++ str_of_int hours ++ " hours, "
               ++ str_of_int minutes ++ " minutes, "
               ++ str_of_int seconds ++ " seconds" ++ LFCR) ;;;
  display_banner start_text ;;;
  display_banner finish_text.

(** [end_time_now] is the clock read by [_write_time_calculation]. *)
Definition v2_playbook_on_stats (stats : AggregateStats) (end_time_now : datetime)
  : M unit :=
  t <- lift (_write_text_with_tab (PStr "PLAY RECAP ") 80 "*") ;;
  t' <- lift (_write_text_with_tab (PStr "") 70 "*") ;;
  let play_recap_text := t' ++ t in
  logger_info SEPARATOR ;;;
  logger_info play_recap_text ;;;
  _write_summary stats ;;;
  _write_time_calculation end_time_now.

End Plugin.

Arguments mk_TaskResult {json_value} _ _ _.
Arguments _result {json_value} _.
Arguments task_vars {json_value} _.
Arguments host_name {json_value} _.
Arguments _log text_width re_sub {json_value} json_dumps result category _.
Arguments v2_runner_on text_width re_sub {json_value} json_dumps ev result _.

(** ** What the formatting methods return

    [_write_text_with_tab] always returns; [pad_text] is the value it
    returns and [recap_text] the line [recap_msg] builds from it. *)

Definition pad_text (text_width : string -> Z) (text : pyval) (width : Z)
  (char : string) : string :=
  py_str text ++ str_mul_nat char (Z.to_nat (width - text_width (py_str text))).

Definition recap_text (text_width : string -> Z) (stats : AggregateStats)
  (host : string) : string :=
  let summary := summarize stats host in
  let column v := pad_text text_width (PInt v) 4 " " in
  RECAP_FORMAT (pad_text text_width (PStr host) 20 " ")
    (column (s_ok summary)) (column (s_changed summary))
    (column (s_unreachable summary)) (column (s_failures summary))
    (column (s_skipped summary)) (column (s_rescued summary))
    (column (s_ignored summary)).

(** The categories the five handlers pass to [_log]. *)
Definition EMITTED_CATEGORIES : list string :=
  ["OK"; "FAILED "; "FAILED .....ignoring"; "SKIPPED"; "UNREACHABLE"; "ASYNC_FAILED"].

(** ** Vocabulary of the properties *)

(** The law of [get_text_width] on printable ASCII: one column per
    character. *)
Definition ascii_law (text_width : string -> Z) : Prop :=
  forall s, printable s = true -> text_width s = Z.of_nat (String.length s).

(** The law of [re.sub] and [re.search]: a string the pattern does not match
    comes back as it is. *)
Definition sub_no_match_law (re_sub : string -> string -> string -> result string)
  (re_search : string -> string -> result bool) : Prop :=
  forall pattern repl s,
    re_search pattern s = Ok false -> re_sub pattern repl s = Ok s.

(** The whole seconds between two clock readings, days included. *)
Definition wall_clock_seconds (start finish : datetime) : Z :=
  (toordinal finish - toordinal start) * 86400
  + (seconds_of_day finish - seconds_of_day start)
  + (microsecond finish - microsecond start) / 1000000.

(** The order of [sorted]: [a <= b] on strings. *)
Definition sle (a b : string) : Prop := String.leb a b = true.

(** No slash in the string. *)
Definition no_sep (s : string) : Prop := has_char sep s = false.

(** The file name [_make_log_file_path] hands to [joinpath]. *)
Definition log_file_name (file_name suffix : string) : string :=
  stem (parse_path file_name) ++ "-" ++ suffix ++ ".log".

(** The path [_make_log_file_path] computes from the option, the playbook
    and the class attribute. *)
Definition output_path (dir file_name suffix : string) : Path :=
  joinpath (joinpath (parse_path dir) (parent (parse_path file_name)))
           (parse_path (log_file_name file_name suffix)).

(** A run up to the start of the playbook: the class body ran at
    [load_now], the plugin was constructed at [now], [set_options] read the
    option [dir], and the playbook [file_name] started. *)
Definition run_start (load_now now : datetime) (dir file_name : string)
  : result (unit * CallbackModule) :=
  (set_options dir ;;; v2_playbook_on_start file_name) (__init__ load_now now).



(** The plugin after the banners [msgs] went to the display. *)
Definition add_banners (msgs : list string) (self : CallbackModule) : CallbackModule :=
  mk_CallbackModule (LOG_FILE_SUFFIX self) (log_directory self) (path self)
    (playbook self) (start_time_now self) (start_time self)
    (logged self) (log_file self) (made_dirs self) (banners self ++ msgs)%list.

(** The three lines [_write_time_calculation] builds. *)
Definition start_line (text_width : string -> Z) (self : CallbackModule) : string :=
  pad_text text_width (PStr "Playbook was started") 20 " " ++ " => " ++ start_time self.

Definition finish_line (text_width : string -> Z) (end_time_now : datetime) : string :=
  pad_text text_width (PStr "Playbook finished") 20 " " ++ " => "
  ++ strftime_time end_time_now.

Definition took_line (runtime : timedelta) : string :=
  let '(hours, minutes, seconds) := hours_minutes_seconds runtime in
  "Playbook run took " ++ str_of_int hours ++ " hours, "
  ++ str_of_int minutes ++ " minutes, "
  ++ str_of_int seconds ++ " seconds" ++ LFCR.

(** The banner line of [v2_playbook_on_stats]. *)
Definition play_recap_line (text_width : string -> Z) : string :=
  pad_text text_width (PStr "") 70 "*" ++ pad_text text_width (PStr "PLAY RECAP ") 80 "*".

(** A tally of at most four digits. *)
Definition small_tally (n : Z) : Prop := 0 <= n <= 9999.

(** A summary whose seven tallies have at most four digits each. *)
Definition small_tallies (summary : Summary) : Prop :=
  small_tally (s_ok summary) /\ small_tally (s_changed summary)
  /\ small_tally (s_unreachable summary) /\ small_tally (s_failures summary)
  /\ small_tally (s_skipped summary) /\ small_tally (s_rescued summary)
  /\ small_tally (s_ignored summary).

(** [str(n)] is printable and at most four characters long. *)
Definition short_decimal (n : nat) : bool :=
  printable (str_of_int (Z.of_nat n))
  && (String.length (str_of_int (Z.of_nat n)) <=? 4)%nat.

(** * Properties *)

(** ** The library models on examples *)

Example parse_path_abs : parse_path "/plays/site.yml" = mk_Path "/" ["plays"; "site.yml"].
Proof. reflexivity. Qed.

Example parse_path_rel : parse_path "./log" = mk_Path "" ["log"].
Proof. reflexivity. Qed.

Example stem_site : stem (parse_path "/plays/site.yml") = "site".
Proof. reflexivity. Qed.

Example strftime_suffix_ex :
  strftime_suffix (mk_datetime 2025 1 2 3 4 5 123456) = "2025-01-02-03-04-05-123456".
Proof. reflexivity. Qed.

(** ** Strings *)

Lemma sapp_assoc (a b c : string) : (a ++ b) ++ c = a ++ (b ++ c).
Proof. induction a as [|x a IH]; simpl; [reflexivity | now rewrite IH]. Qed.

Lemma sapp_nil_r (a : string) : a ++ "" = a.
Proof. induction a as [|x a IH]; simpl; [reflexivity | now rewrite IH]. Qed.

Lemma slength_app (a b : string) :
  String.length (a ++ b) = (String.length a + String.length b)%nat.
Proof. induction a as [|x a IH]; simpl; [reflexivity | now rewrite IH]. Qed.

(** Two splits of one string at the same distance from the end agree. *)
Lemma sapp_inv_tail_length (a a' b b' : string) :
  String.length b = String.length b' -> a ++ b = a' ++ b' -> a = a' /\ b = b'.
Proof.
  revert a'. induction a as [|x a IH]; intros [|y a'] Hlen Heq; simpl in *.
  - now split.
  - exfalso. apply (f_equal String.length) in Heq. simpl in Heq.
    rewrite slength_app in Heq. lia.
  - exfalso. apply (f_equal String.length) in Heq. simpl in Heq.
    rewrite slength_app in Heq. lia.
  - injection Heq as -> Heq. destruct (IH a' Hlen Heq) as [-> ->]. now split.
Qed.

(** Two splits of one string at the same distance from the start agree. *)
Lemma sapp_inv_head_length (a a' b b' : string) :
  String.length a = String.length a' -> a ++ b = a' ++ b' -> a = a' /\ b = b'.
Proof.
  revert a'. induction a as [|x a IH]; intros [|y a'] Hlen Heq; simpl in *;
    try discriminate.
  - now split.
  - injection Heq as -> Heq. injection Hlen as Hlen.
    destruct (IH a' Hlen Heq) as [-> ->]. now split.
Qed.

Lemma str_mul_nat_length_1 (c : ascii) (n : nat) :
  String.length (str_mul_nat (String c "") n) = n.
Proof. induction n as [|n IH]; simpl; [reflexivity | now rewrite IH]. Qed.

Lemma printable_app (a b : string) :
  printable (a ++ b) = printable a && printable b.
Proof.
  induction a as [|x a IH]; simpl; [reflexivity |].
  now rewrite IH, andb_assoc.
Qed.

Lemma printable_str_mul_nat (c : ascii) (n : nat) :
  printable_char c = true -> printable (str_mul_nat (String c "") n) = true.
Proof.
  intros Hc. induction n as [|n IH]; simpl; [reflexivity |].
  now rewrite Hc, IH.
Qed.

(** ** The monad *)

Lemma add_logged_add_logged (a b : list string) (self : CallbackModule) :
  add_logged b (add_logged a self) = add_logged (a ++ b)%list self.
Proof. unfold add_logged; simpl. now rewrite <- app_assoc. Qed.

Lemma add_logged_nil (self : CallbackModule) : add_logged [] self = self.
Proof. destruct self; unfold add_logged; simpl. now rewrite app_nil_r. Qed.

(** ** Column padding *)

Section Padding.

Variable text_width : string -> Z.

Lemma write_text_with_tab_returns (text : pyval) (width : Z) (char : string) :
  _write_text_with_tab text_width text width char
  = Ok (pad_text text_width text width char).
Proof. reflexivity. Qed.

Lemma pad_text_fits (text : pyval) (width : Z) (c : ascii) :
  ascii_law text_width -> printable (py_str text) = true -> printable_char c = true ->
  text_width (py_str text) <= width ->
  text_width (pad_text text_width text width (String c "")) = width.
Proof.
  intros Hlaw Hp Hc Hle. unfold pad_text.
  rewrite Hlaw.
  - rewrite slength_app, str_mul_nat_length_1, Nat2Z.inj_add.
    rewrite <- (Hlaw _ Hp). lia.
  - rewrite printable_app, Hp. simpl. now apply printable_str_mul_nat.
Qed.

Lemma pad_text_wider (text : pyval) (width : Z) (char : string) :
  width <= text_width (py_str text) ->
  pad_text text_width text width char = py_str text.
Proof.
  intros H. unfold pad_text.
  replace (Z.to_nat (width - text_width (py_str text))) with O by lia.
  simpl. apply sapp_nil_r.
Qed.



End Padding.

(** ** Elapsed time *)

Lemma datetime_sub_seconds (start finish : datetime) :
  td_seconds (datetime_sub finish start) = wall_clock_seconds start finish mod 86400.
Proof.
  unfold datetime_sub, make_timedelta, wall_clock_seconds. simpl.
  set (days := toordinal finish - toordinal start).
  set (s := seconds_of_day finish - seconds_of_day start
            + (microsecond finish - microsecond start) / 1000000).
  replace (days * 86400 + (seconds_of_day finish - seconds_of_day start)
           + (microsecond finish - microsecond start) / 1000000)
    with (s + days * 86400) by (subst s; ring).
  now rewrite Z_mod_plus_full.
Qed.

Lemma seconds_split (r : Z) :
  0 <= r < 86400 ->
  r = 3600 * (r / 3600) + 60 * ((r / 60) mod 60) + r mod 60
  /\ 0 <= r / 3600 < 24 /\ 0 <= (r / 60) mod 60 < 60 /\ 0 <= r mod 60 < 60.
Proof. intros H. Z.div_mod_to_equations. lia. Qed.

Lemma write_time_calculation_logged (text_width : string -> Z)
  (end_time_now : datetime) (self : CallbackModule) :
  exists self',
    _write_time_calculation text_width end_time_now self = Ok (tt, self')
    /\ logged self' =
       List.app (logged self)
        [pad_text text_width (PStr "Playbook was started") 20 " " ++ " => " ++ start_time self;
         pad_text text_width (PStr "Playbook finished") 20 " " ++ " => "
           ++ strftime_time end_time_now;
         let '(hours, minutes, seconds) :=
           hours_minutes_seconds (datetime_sub end_time_now (start_time_now self)) in
         "Playbook run took " ++ str_of_int hours ++ " hours, "
           ++ str_of_int minutes ++ " minutes, "
           ++ str_of_int seconds ++ " seconds" ++ LFCR].
Proof.
  eexists. split.
  - unfold _write_time_calculation, bind, get_self, lift.
    rewrite !write_text_with_tab_returns. cbv beta iota zeta.
    unfold hours_minutes_seconds. cbv beta iota zeta.
    unfold logger_info, display_banner, bind. reflexivity.
  - simpl. rewrite <- !app_assoc. reflexivity.
Qed.

(** C3: the elapsed time reported at the end of a run is split from the
    seconds-of-day remainder of the wall-clock delta only: hours, minutes
    and seconds are [r // 3600], [(r // 60) % 60] and [r % 60] for
    [r = delta mod 86400], so the whole days of the delta are dropped and
    the hours stay below 24. *)
Theorem elapsed_drops_whole_days (text_width : string -> Z)
  (end_time_now : datetime) (self : CallbackModule) :
  let delta := wall_clock_seconds (start_time_now self) end_time_now in
  let r := delta mod 86400 in
  let hours := r / 3600 in
  let minutes := (r / 60) mod 60 in
  let seconds := r mod 60 in
  hours_minutes_seconds (datetime_sub end_time_now (start_time_now self))
  = (hours, minutes, seconds)
  /\ delta = 86400 * (delta / 86400) + 3600 * hours + 60 * minutes + seconds
  /\ 0 <= hours < 24 /\ 0 <= minutes < 60 /\ 0 <= seconds < 60
  /\ exists self' start_text finish_text,
       _write_time_calculation text_width end_time_now self = Ok (tt, self')
       /\ logged self' =
          List.app (logged self)
           [start_text; finish_text;
            "Playbook run took " ++ str_of_int hours ++ " hours, "
              ++ str_of_int minutes ++ " minutes, "
              ++ str_of_int seconds ++ " seconds" ++ LFCR].
Proof.
  intros delta r hours minutes seconds.
  assert (Hr : 0 <= r < 86400) by (apply Z.mod_pos_bound; lia).
  assert (Hhms : hours_minutes_seconds (datetime_sub end_time_now (start_time_now self))
                 = (hours, minutes, seconds)).
  { unfold hours_minutes_seconds. rewrite datetime_sub_seconds. reflexivity. }
  destruct (seconds_split r Hr) as (Hsplit & Hh & Hm & Hs).
  split; [exact Hhms | split; [| repeat split; try tauto]].
  - pose proof (Z.div_mod delta 86400 ltac:(lia)) as Hd.
    fold r in Hd. subst hours minutes seconds. lia.
  - destruct (write_time_calculation_logged text_width end_time_now self)
      as (self' & Hrun & Hlog).
    rewrite Hhms in Hlog.
    exists self'. eexists. eexists. split; [exact Hrun | exact Hlog].
Qed.

(** A run of twenty-five hours is reported as one hour. *)
Example elapsed_25_hours :
  hours_minutes_seconds
    (datetime_sub (mk_datetime 2025 1 3 4 4 6 0) (mk_datetime 2025 1 2 3 4 6 0))
  = (1, 0, 0).
Proof. reflexivity. Qed.

(** ** The reference regular expressions *)

Lemma sub_from_no_match (r : list atom) (repl s : string) :
  search_from r s = false -> sub_from r repl s 0 = s.
Proof.
  induction s as [|c s IH]; intros H.
  - destruct r as [|a r]; [discriminate H | reflexivity].
  - cbn [search_from] in H. apply orb_false_iff in H as [Hm Hs].
    cbn [sub_from]. rewrite Hm, (IH Hs). reflexivity.
Qed.

Lemma frag_sub_no_match (pattern repl s : string) :
  frag_search pattern s = Ok false -> frag_sub pattern repl s = Ok s.
Proof.
  unfold frag_search, frag_sub. destruct (re_compile pattern) as [r|]; [| discriminate].
  intros H. injection H as H. now rewrite sub_from_no_match.
Qed.

(** ** Redaction *)

Section Redaction.

Variable re_sub : string -> string -> string -> result string.

(** [re.search(pattern, string)]: whether the pattern matches somewhere. *)
Variable re_search : string -> string -> result bool.

Lemma redact_no_match (data : string) (masks : list string) :
  sub_no_match_law re_sub re_search ->
  Forall (fun mask => re_search mask data = Ok false) masks ->
  redact re_sub data masks = Ok data.
Proof.
  intros Hlaw Hall. induction Hall as [|mask rest Hm _ IH]; simpl.
  - reflexivity.
  - now rewrite (Hlaw _ _ _ Hm).
Qed.


(** C8: with no mask, an empty list of masks, or empty task variables,
    the payload is logged as it is; and masks that match nothing in the
    payload neither fail nor change it. *)
Theorem redact_without_match (payload : string)
  (vars : list (string * list string)) (masks : list string) :
  redact re_sub payload [] = Ok payload
  /\ (dict_get "custom_logging_mask" vars = None
      \/ dict_get "custom_logging_mask" vars = Some [] ->
      masked_data re_sub vars payload = Ok payload)
  /\ masked_data re_sub [] payload = Ok payload
  /\ (sub_no_match_law re_sub re_search ->
      Forall (fun mask => re_search mask payload = Ok false) masks ->
      redact re_sub payload masks = Ok payload).
Proof.
  repeat split.
  - intros [H | H]; unfold masked_data; now rewrite H.
  - intros Hlaw Hall. now apply redact_no_match.
Qed.


End Redaction.


Lemma redact_without_match_witness :
  redact frag_sub "[1, 2, 3]" ["secret123"; "pass.ord"] = Ok "[1, 2, 3]".
Proof.
  apply (proj2 (proj2 (proj2
           (redact_without_match frag_sub frag_search "[1, 2, 3]" []
              ["secret123"; "pass.ord"])))).
  - intros pattern repl s. apply frag_sub_no_match.
  - repeat constructor.
Defined.


(** ** Host-result records *)

Section Records.

Variable text_width : string -> Z.
Variable re_sub : string -> string -> string -> result string.
Variable json_value : Type.
Variable json_dumps : json_value -> result string.

(** [_log] writes two messages once the result is serialised and masked. *)
Lemma log_returns (res : TaskResult json_value) (category data data' : string)
  (self : CallbackModule) :
  json_dumps (_result res) = Ok data ->
  masked_data re_sub (task_vars res) data = Ok data' ->
  _log text_width re_sub json_dumps res category self
  = Ok (tt, add_logged
              [pad_text text_width (PStr (host_name res)) 18 " " ++ " => " ++ category;
               data' ++ " " ++ CRLF] self).
Proof.
  intros Hdumps Hmask. unfold _log, bind, lift.
  rewrite Hdumps, Hmask, write_text_with_tab_returns.
  unfold logger_info. now rewrite add_logged_add_logged.
Qed.

Lemma recap_msg_returns (stats : AggregateStats) (host : string)
  (self : CallbackModule) :
  recap_msg text_width stats host self = Ok (recap_text text_width stats host, self).
Proof. reflexivity. Qed.

Lemma category_emitted (ev : runner_event) : In (category_of ev) EMITTED_CATEGORIES.
Proof. destruct ev as [[|]| | | |]; simpl; tauto. Qed.

(** C4, as the code has it: the header line of a host result carries one
    of the categories [OK], [SKIPPED], [UNREACHABLE], [ASYNC_FAILED], or,
    for a failed result, [FAILED ] followed by [.....ignoring] when errors
    are ignored and by nothing otherwise. *)
Theorem header_category (ev : runner_event) (res : TaskResult json_value)
  (data data' : string) (self : CallbackModule) :
  json_dumps (_result res) = Ok data ->
  masked_data re_sub (task_vars res) data = Ok data' ->
  v2_runner_on text_width re_sub json_dumps ev res self
  = Ok (tt, add_logged
              [pad_text text_width (PStr (host_name res)) 18 " "
                 ++ " => " ++ category_of ev;
               data' ++ " " ++ CRLF] self)
  /\ In (category_of ev) EMITTED_CATEGORIES
  /\ (forall ignore_errors : bool,
         category_of (on_failed ignore_errors)
         = "FAILED " ++ (if ignore_errors then ".....ignoring" else "")).
Proof.
  intros Hdumps Hmask. split; [| split].
  - unfold v2_runner_on. eapply log_returns; eassumption.
  - apply category_emitted.
  - reflexivity.
Qed.

(** C10: the header line of a host result fills the host name to 18
    columns, the recap line fills the same name to 20; the two columns
    differ for every name narrower than 20 columns, and for a printable
    ASCII name of at most 18 columns they are 18 and 20 columns wide. *)
Theorem host_columns_differ (ev : runner_event) (res : TaskResult json_value)
  (data data' : string) (stats : AggregateStats) (self : CallbackModule) :
  json_dumps (_result res) = Ok data ->
  masked_data re_sub (task_vars res) data = Ok data' ->
  let host := host_name res in
  let w := text_width host in
  let header_column := host ++ str_mul_nat " " (Z.to_nat (18 - w)) in
  let recap_column := host ++ str_mul_nat " " (Z.to_nat (20 - w)) in
  v2_runner_on text_width re_sub json_dumps ev res self
  = Ok (tt, add_logged [header_column ++ " => " ++ category_of ev;
                        data' ++ " " ++ CRLF] self)
  /\ (exists rest,
         recap_msg text_width stats host self
         = Ok (recap_column ++ " : ok=" ++ rest, self))
  /\ (w < 20 -> header_column <> recap_column)
  /\ (ascii_law text_width -> printable host = true -> w <= 18 ->
      text_width header_column = 18 /\ text_width recap_column = 20).
Proof.
  intros Hdumps Hmask host w header_column recap_column.
  split; [| split; [| split]].
  - unfold v2_runner_on. eapply log_returns; eassumption.
  - eexists. rewrite recap_msg_returns. unfold recap_text, RECAP_FORMAT.
    reflexivity.
  - intros Hw Heq. apply (f_equal String.length) in Heq.
    subst header_column recap_column.
    rewrite !slength_app, !str_mul_nat_length_1 in Heq. lia.
  - intros Hlaw Hp Hw. split.
    + apply (pad_text_fits text_width (PStr host) 18 " "%char);
        [assumption | assumption | reflexivity | simpl; fold host; fold w; lia].
    + apply (pad_text_fits text_width (PStr host) 20 " "%char);
        [assumption | assumption | reflexivity | simpl; fold host; fold w; lia].
Qed.

End Records.

(** A failed result whose errors are ignored is logged under a category
    outside the enumeration; so is a plain failed result, whose category
    ends in a space. *)
Lemma header_category_outside_enumeration :
  (exists self',
      v2_runner_on ascii_columns frag_sub (@Ok string) (on_failed true)
        (mk_TaskResult "[1, 2, 3]" [] "db1")
        (__init__ (mk_datetime 2025 1 2 3 4 5 123456) (mk_datetime 2025 1 2 3 4 6 0))
      = Ok (tt, self')
      /\ logged self' = ["db1                => FAILED .....ignoring";
                         "[1, 2, 3] " ++ CRLF])
  /\ ~ In (category_of (on_failed true)) CATEGORIES
  /\ ~ In (category_of (on_failed false)) CATEGORIES.
Proof.
  split; [| split].
  - eexists. split; reflexivity.
  - simpl. intros [H | [H | [H | [H | [H | []]]]]]; discriminate H.
  - simpl. intros [H | [H | [H | [H | [H | []]]]]]; discriminate H.
Qed.

Lemma header_category_witness :
  In (category_of (on_failed true)) EMITTED_CATEGORIES.
Proof.
  apply (header_category ascii_columns frag_sub string (@Ok string) (on_failed true)
           (mk_TaskResult "[1, 2, 3]" [("custom_logging_mask", ["2"])] "db1")
           "[1, 2, 3]" ("[1, " ++ MASK ++ ", 3]")
           (__init__ (mk_datetime 2025 1 2 3 4 5 123456) (mk_datetime 2025 1 2 3 4 6 0)));
    reflexivity.
Defined.

Lemma host_columns_differ_witness :
  ascii_columns ("db1" ++ str_mul_nat " " 15) = 18
  /\ ascii_columns ("db1" ++ str_mul_nat " " 17) = 20.
Proof.
  apply (host_columns_differ ascii_columns frag_sub string (@Ok string) on_ok
           (mk_TaskResult "[1, 2, 3]" [] "db1") "[1, 2, 3]" "[1, 2, 3]"
           (mk_AggregateStats ["db1"] (fun _ => mk_Summary 5 1 0 0 2 0 0))
           (__init__ (mk_datetime 2025 1 2 3 4 5 123456) (mk_datetime 2025 1 2 3 4 6 0)));
    try reflexivity.
  - intros s _. reflexivity.
  - vm_compute. discriminate.
Defined.

(** ** The recap *)

(** [String.leb] is the lexicographic order on character codes. *)
Lemma leb_lexicographic (a b : string) :
  String.leb a b = true <-> a = b \/ String_as_OT.lt a b.
Proof.
  unfold String.leb. split.
  - destruct (String.compare a b) eqn:Hc; intros H; try discriminate H.
    + left. now apply String.compare_eq_iff.
    + right. now apply String_as_OT.cmp_lt.
  - intros [-> | Hlt].
    + assert (H : String.compare b b = Eq) by now apply String_as_OT.cmp_eq.
      now rewrite H.
    + apply String_as_OT.cmp_lt in Hlt. unfold String_as_OT.cmp in Hlt.
      now rewrite Hlt.
Qed.

Lemma sle_refl (a : string) : sle a a.
Proof. apply leb_lexicographic. now left. Qed.

Lemma sle_trans (a b c : string) : sle a b -> sle b c -> sle a c.
Proof.
  unfold sle. rewrite !leb_lexicographic.
  intros [-> | Hab] [-> | Hbc]; auto.
  right. eapply String_as_OT.lt_trans; eassumption.
Qed.

Lemma sle_total (a b : string) : sle a b \/ sle b a.
Proof. apply String.leb_total. Qed.

Lemma insort_perm (x : string) (l : list string) : Permutation (x :: l) (insort x l).
Proof.
  induction l as [|y l IH]; simpl.
  - apply Permutation_refl.
  - destruct (String.leb x y).
    + apply Permutation_refl.
    + eapply perm_trans; [apply perm_swap | apply perm_skip, IH].
Qed.

Lemma sorted_perm (l : list string) : Permutation l (sorted l).
Proof.
  induction l as [|x l IH]; simpl.
  - apply perm_nil.
  - eapply perm_trans; [apply perm_skip, IH | apply insort_perm].
Qed.

Lemma insort_all (y x : string) (l : list string) :
  sle y x -> Forall (sle y) l -> Forall (sle y) (insort x l).
Proof.
  intros Hyx Hall. induction Hall as [|z l Hz Hl IH]; simpl.
  - now constructor.
  - destruct (String.leb x z); repeat constructor; assumption.
Qed.

Lemma insort_sorted (x : string) (l : list string) :
  StronglySorted sle l -> StronglySorted sle (insort x l).
Proof.
  induction 1 as [|y l Hs IH Hall]; simpl.
  - repeat constructor.
  - destruct (String.leb x y) eqn:Hxy.
    + constructor; [now constructor |].
      constructor; [exact Hxy |].
      eapply Forall_impl; [| exact Hall]. intros z Hz. now apply sle_trans with y.
    + constructor; [exact IH |].
      apply insort_all; [| exact Hall].
      destruct (sle_total x y) as [H | H]; [unfold sle in H; congruence | exact H].
Qed.

Lemma sorted_sorted (l : list string) : StronglySorted sle (sorted l).
Proof.
  induction l as [|x l IH]; simpl; [constructor | now apply insort_sorted].
Qed.

(** A list has one sorted arrangement only. *)
Lemma sorted_unique (l1 l2 : list string) :
  StronglySorted sle l1 -> StronglySorted sle l2 -> Permutation l1 l2 -> l1 = l2.
Proof.
  intros H1. revert l2. induction H1 as [|a l1 Hs1 IH Ha]; intros l2 H2 Hp.
  - now apply Permutation_nil in Hp.
  - destruct H2 as [|b l2 Hs2 Hb].
    + apply Permutation_sym, Permutation_nil in Hp. discriminate Hp.
    + assert (Hab : sle a b).
      { assert (Hin : In b (a :: l1))
          by (eapply Permutation_in; [apply Permutation_sym, Hp | now left]).
        destruct Hin as [-> | Hin]; [apply sle_refl |].
        rewrite Forall_forall in Ha. now apply Ha. }
      assert (Hba : sle b a).
      { assert (Hin : In a (b :: l2))
          by (eapply Permutation_in; [apply Hp | now left]).
        destruct Hin as [-> | Hin]; [apply sle_refl |].
        rewrite Forall_forall in Hb. now apply Hb. }
      assert (a = b) by now apply String.leb_antisym.
      subst b. f_equal. apply IH; [exact Hs2 |].
      now apply Permutation_cons_inv with a.
Qed.

Lemma sorted_order_independent (l1 l2 : list string) :
  Permutation l1 l2 -> sorted l1 = sorted l2.
Proof.
  intros Hp. apply sorted_unique; try apply sorted_sorted.
  eapply perm_trans; [apply Permutation_sym, sorted_perm |].
  eapply perm_trans; [exact Hp | apply sorted_perm].
Qed.

Lemma write_summary_lines (text_width : string -> Z) (stats : AggregateStats)
  (hosts : list string) (self : CallbackModule) :
  for_each hosts (fun host =>
    msg <- recap_msg text_width stats host ;; logger_info msg) self
  = Ok (tt, add_logged (map (recap_text text_width stats) hosts) self).
Proof.
  revert self. induction hosts as [|host hosts IH]; intros self; simpl.
  - unfold ret. now rewrite add_logged_nil.
  - unfold bind at 1. unfold bind at 1. rewrite recap_msg_returns.
    unfold logger_info. rewrite IH, add_logged_add_logged. reflexivity.
Qed.

(** C5: the recap lines are written in ascending lexicographic order of the
    host names, whatever the order of the hosts in the statistics: the lines
    are those of the sorted host names, which are an ordered rearrangement of
    the processed hosts and the same for every order of the same hosts; for
    the hosts [web2], [web1] the line of [web1] comes first. *)
Theorem recap_in_host_order (text_width : string -> Z) (stats : AggregateStats)
  (self : CallbackModule) :
  _write_summary text_width stats self
  = Ok (tt, add_logged
              (map (recap_text text_width stats) (sorted (processed stats))) self)
  /\ StronglySorted (fun a b => String.leb a b = true) (sorted (processed stats))
  /\ Permutation (processed stats) (sorted (processed stats))
  /\ (forall a b, String.leb a b = true <-> a = b \/ String_as_OT.lt a b)
  /\ (forall stats' : AggregateStats,
         Permutation (processed stats) (processed stats') ->
         sorted (processed stats') = sorted (processed stats))
  /\ (forall tallies,
         _write_summary text_width (mk_AggregateStats ["web2"; "web1"] tallies) self
         = Ok (tt, add_logged
                     [recap_text text_width (mk_AggregateStats ["web2"; "web1"] tallies) "web1";
                      recap_text text_width (mk_AggregateStats ["web2"; "web1"] tallies) "web2"]
                     self)).
Proof.
  split; [apply write_summary_lines |].
  split; [apply sorted_sorted |].
  split; [apply sorted_perm |].
  split; [apply leb_lexicographic |].
  split.
  - intros stats' Hp. symmetry. now apply sorted_order_independent.
  - intros tallies. unfold _write_summary. rewrite write_summary_lines. reflexivity.
Qed.

(** The recap of one host with the tallies 5, 1, 0, 0, 2, 0, 0. *)
Example recap_text_db1 :
  recap_text ascii_columns
    (mk_AggregateStats ["db1"] (fun _ => mk_Summary 5 1 0 0 2 0 0)) "db1"
  = "db1                  : ok=5     changed=1     unreachable=0     failed=0     skipped=2     rescued=0     ignored=0   ".
Proof. reflexivity. Qed.

(** ** The log file path *)

Lemma has_char_app (c : ascii) (a b : string) :
  has_char c (a ++ b) = has_char c a || has_char c b.
Proof.
  induction a as [|x a IH]; simpl; [reflexivity |].
  now rewrite IH, orb_assoc.
Qed.

Lemma split_no_sep (s : string) : Forall no_sep (split sep s).
Proof.
  induction s as [|c s IH]; simpl.
  - repeat constructor.
  - destruct (Ascii.eqb c sep) eqn:Hc.
    + constructor; [reflexivity | exact IH].
    + destruct (split sep s) as [|w ws].
      * repeat constructor. unfold no_sep. simpl. now rewrite Hc.
      * inversion IH as [|? ? Hw Hws]; subst. constructor; [| exact Hws].
        unfold no_sep in *. simpl. now rewrite Hc.
Qed.

Lemma split_single (s : string) : no_sep s -> split sep s = [s].
Proof.
  unfold no_sep. induction s as [|c s IH]; simpl; intros H.
  - reflexivity.
  - apply orb_false_iff in H as [Hc Hs]. now rewrite Hc, (IH Hs).
Qed.

Lemma parts_no_sep (s : string) : Forall no_sep (parts (parse_path s)).
Proof.
  assert (H : forall t, Forall no_sep (filter keep_part (split sep t))).
  { intros t. apply Forall_forall. intros x Hx. apply filter_In in Hx as [Hx _].
    pose proof (split_no_sep t) as Hall. rewrite Forall_forall in Hall. now apply Hall. }
  unfold parse_path.
  destruct (starts_with_sep s); [| apply H].
  destruct (starts_with_sep (drop1 s) && negb (starts_with_sep (drop1 (drop1 s))));
    apply H.
Qed.

Lemma last_no_sep (l : list string) : Forall no_sep l -> no_sep (last l "").
Proof.
  induction 1 as [|x l Hx Hl IH]; [reflexivity |].
  destruct l as [|y l]; [exact Hx | exact IH].
Qed.

Lemma substring_no_sep (m : nat) (s : string) : no_sep s -> no_sep (substring 0 m s).
Proof.
  unfold no_sep. revert s. induction m as [|m IH]; intros s H.
  - destruct s; reflexivity.
  - destruct s as [|c s]; [reflexivity |]. simpl in *.
    apply orb_false_iff in H as [Hc Hs]. now rewrite Hc, (IH s Hs).
Qed.

Lemma stem_no_sep (s : string) : no_sep (stem (parse_path s)).
Proof.
  assert (Hn : no_sep (name (parse_path s))) by apply last_no_sep, parts_no_sep.
  unfold stem.
  destruct ((0 <? rfind "."%char (name (parse_path s)))
            && (rfind "."%char (name (parse_path s))
                <? Z.of_nat (String.length (name (parse_path s))) - 1));
    [now apply substring_no_sep | exact Hn].
Qed.

Lemma digit_not_sep (d : Z) : 0 <= d < 10 -> Ascii.eqb (digit d) sep = false.
Proof.
  intros H.
  assert (Hd : d = 0 \/ d = 1 \/ d = 2 \/ d = 3 \/ d = 4 \/ d = 5 \/ d = 6
               \/ d = 7 \/ d = 8 \/ d = 9) by lia.
  repeat (destruct Hd as [-> | Hd]; [reflexivity |]). now subst.
Qed.

Lemma zfill_no_sep (w : nat) (n : Z) : no_sep (zfill w n).
Proof.
  unfold no_sep. induction w as [|w IH]; cbn [zfill has_char]; [reflexivity |].
  rewrite IH, digit_not_sep; [reflexivity |]. apply Z.mod_pos_bound. lia.
Qed.

Lemma no_sep_app (a b : string) : no_sep a -> no_sep b -> no_sep (a ++ b).
Proof. unfold no_sep. intros Ha Hb. now rewrite has_char_app, Ha, Hb. Qed.

Lemma strftime_suffix_no_sep (d : datetime) : no_sep (strftime_suffix d).
Proof.
  assert (Hdash : no_sep "-") by reflexivity.
  unfold strftime_suffix.
  repeat (apply no_sep_app; [first [apply zfill_no_sep | exact Hdash] |]).
  apply zfill_no_sep.
Qed.

Lemma zfill_length (w : nat) (n : Z) : String.length (zfill w n) = w.
Proof.
  induction w as [|w IH]; cbn [zfill String.length]; [reflexivity | now rewrite IH].
Qed.

Lemma strftime_suffix_length (d : datetime) : String.length (strftime_suffix d) = 26%nat.
Proof.
  unfold strftime_suffix. rewrite !slength_app, !zfill_length. reflexivity.
Qed.

Lemma digit_inj (a b : Z) : 0 <= a < 10 -> 0 <= b < 10 -> digit a = digit b -> a = b.
Proof.
  intros Ha Hb H. unfold digit in H. apply (f_equal nat_of_ascii) in H.
  rewrite !nat_ascii_embedding in H by lia. lia.
Qed.

Lemma zfill_inj_mod (w : nat) (n m : Z) :
  zfill w n = zfill w m -> n mod 10 ^ Z.of_nat w = m mod 10 ^ Z.of_nat w.
Proof.
  induction w as [|w IH]; intros H.
  - change (10 ^ Z.of_nat 0) with 1. now rewrite !Z.mod_1_r.
  - cbn [zfill] in H. injection H as Hd Ht.
    apply digit_inj in Hd; try (apply Z.mod_pos_bound; lia).
    specialize (IH Ht).
    rewrite Nat2Z.inj_succ, Z.pow_succ_r by lia.
    rewrite (Z.mul_comm 10).
    assert (Hp : 0 < 10 ^ Z.of_nat w) by (apply Z.pow_pos_nonneg; lia).
    rewrite !Z.rem_mul_r by lia. now rewrite Hd, IH.
Qed.

Lemma zfill_inj (w : nat) (n m : Z) :
  0 <= n < 10 ^ Z.of_nat w -> 0 <= m < 10 ^ Z.of_nat w ->
  zfill w n = zfill w m -> n = m.
Proof.
  intros Hn Hm H. apply zfill_inj_mod in H.
  now rewrite !Z.mod_small in H.
Qed.

Ltac peel_field H w :=
  let Hf := fresh "Hfield" in
  apply sapp_inv_head_length in H; [| now rewrite !zfill_length];
  destruct H as [Hf H];
  apply (zfill_inj w) in Hf; [| simpl; lia | simpl; lia].

Ltac peel_dash H :=
  apply (sapp_inv_head_length "-" "-") in H; [| reflexivity];
  destruct H as [_ H].

(** Two valid datetimes that print alike are the same. *)
Lemma strftime_suffix_inj (a b : datetime) :
  valid_datetime a -> valid_datetime b ->
  strftime_suffix a = strftime_suffix b -> a = b.
Proof.
  intros (Hy & Hmo & Hd & Hh & Hmi & Hs & Hu) (Hy' & Hmo' & Hd' & Hh' & Hmi' & Hs' & Hu') H.
  destruct a as [y mo d h mi s u], b as [y' mo' d' h' mi' s' u']. simpl in *.
  unfold strftime_suffix in H. simpl year in H. simpl month in H. simpl day in H.
  simpl hour in H. simpl minute in H. simpl second in H. simpl microsecond in H.
  peel_field H 4%nat. peel_dash H.
  peel_field H 2%nat. peel_dash H.
  peel_field H 2%nat. peel_dash H.
  peel_field H 2%nat. peel_dash H.
  peel_field H 2%nat. peel_dash H.
  peel_field H 2%nat. peel_dash H.
  apply (zfill_inj 6) in H; [| simpl; lia | simpl; lia].
  congruence.
Qed.

Lemma run_start_returns (load_now now : datetime) (dir file_name : string) :
  exists self',
    run_start load_now now dir file_name = Ok (tt, self')
    /\ path self' = Some (output_path dir file_name (strftime_suffix load_now))
    /\ log_file self' = path self'
    /\ start_time_now self' = now
    /\ LOG_FILE_SUFFIX self' = strftime_suffix load_now
    /\ start_time self' = strftime_time now.
Proof. eexists. repeat split. Qed.

Lemma keep_part_long (s : string) : (2 <= String.length s)%nat -> keep_part s = true.
Proof.
  intros H. unfold keep_part.
  assert (H0 : String.eqb s "" = false).
  { apply String.eqb_neq. intros ->. simpl in H. lia. }
  assert (H1 : String.eqb s "." = false).
  { apply String.eqb_neq. intros ->. simpl in H. lia. }
  now rewrite H0, H1.
Qed.

Lemma log_file_name_no_sep (file_name : string) (d : datetime) :
  no_sep (log_file_name file_name (strftime_suffix d)).
Proof.
  unfold log_file_name.
  apply no_sep_app; [apply stem_no_sep |].
  apply no_sep_app; [reflexivity |].
  apply no_sep_app; [apply strftime_suffix_no_sep | reflexivity].
Qed.

Lemma log_file_name_length (file_name : string) (d : datetime) :
  (2 <= String.length (log_file_name file_name (strftime_suffix d)))%nat.
Proof.
  unfold log_file_name. rewrite !slength_app, strftime_suffix_length. simpl. lia.
Qed.

Lemma no_sep_relative (s : string) : no_sep s -> starts_with_sep s = false.
Proof.
  unfold no_sep. destruct s as [|c s]; [reflexivity |]. simpl.
  intros H. now apply orb_false_iff in H as [H _].
Qed.

(** The file name is one component of its own. *)
Lemma log_file_name_path (file_name : string) (d : datetime) :
  parse_path (log_file_name file_name (strftime_suffix d))
  = mk_Path "" [log_file_name file_name (strftime_suffix d)].
Proof.
  pose proof (log_file_name_no_sep file_name d) as Hn.
  unfold parse_path. rewrite (no_sep_relative _ Hn), (split_single _ Hn).
  cbn [filter]. now rewrite keep_part_long by apply log_file_name_length.
Qed.

Lemma output_path_parts (dir file_name : string) (d : datetime) :
  output_path dir file_name (strftime_suffix d)
  = mk_Path (root (joinpath (parse_path dir) (parent (parse_path file_name))))
      (parts (joinpath (parse_path dir) (parent (parse_path file_name)))
       ++ [log_file_name file_name (strftime_suffix d)])%list.
Proof. unfold output_path. rewrite log_file_name_path. reflexivity. Qed.

Lemma join_cons (x y : string) (l : list string) :
  join "/" (x :: y :: l) = x ++ "/" ++ join "/" (y :: l).
Proof. reflexivity. Qed.

Lemma join_snoc (l : list string) (x : string) :
  exists pre, join "/" (l ++ [x])%list = pre ++ x.
Proof.
  induction l as [|a l [pre IH]].
  - now exists "".
  - destruct l as [|b l].
    + exists (a ++ "/"). simpl. now rewrite sapp_assoc.
    + exists (a ++ "/" ++ pre).
      change ((a :: b :: l) ++ [x])%list with (a :: b :: (l ++ [x]))%list.
      rewrite join_cons. change (b :: (l ++ [x]))%list with ((b :: l) ++ [x])%list.
      rewrite IH. now rewrite !sapp_assoc.
Qed.

Lemma eqb_app_nonempty (a b : string) :
  (1 <= String.length b)%nat -> String.eqb (a ++ b) "" = false.
Proof.
  intros H. apply String.eqb_neq. intros Heq.
  apply (f_equal String.length) in Heq. rewrite slength_app in Heq. simpl in Heq. lia.
Qed.

(** The path, as text, ends with the suffix and [.log]. *)
Lemma output_path_str (dir file_name : string) (d : datetime) :
  exists pre,
    path_str (output_path dir file_name (strftime_suffix d))
    = pre ++ strftime_suffix d ++ ".log".
Proof.
  rewrite output_path_parts. unfold path_str. cbn [root parts].
  destruct (join_snoc
              (parts (joinpath (parse_path dir) (parent (parse_path file_name))))
              (log_file_name file_name (strftime_suffix d))) as [pre Hpre].
  rewrite Hpre, <- sapp_assoc.
  rewrite eqb_app_nonempty
    by (pose proof (log_file_name_length file_name d); lia).
  exists ((root (joinpath (parse_path dir) (parent (parse_path file_name))) ++ pre)
          ++ stem (parse_path file_name) ++ "-").
  unfold log_file_name. now rewrite !sapp_assoc.
Qed.

(** Paths built from two different valid load times differ, whatever the
    directories and playbooks. *)
Lemma output_path_injective (dir1 dir2 file1 file2 : string) (d1 d2 : datetime) :
  valid_datetime d1 -> valid_datetime d2 ->
  path_str (output_path dir1 file1 (strftime_suffix d1))
  = path_str (output_path dir2 file2 (strftime_suffix d2)) ->
  d1 = d2.
Proof.
  intros Hv1 Hv2 H.
  destruct (output_path_str dir1 file1 d1) as [pre1 H1].
  destruct (output_path_str dir2 file2 d2) as [pre2 H2].
  rewrite H1, H2 in H.
  apply sapp_inv_tail_length in H.
  - destruct H as [_ H].
    apply sapp_inv_head_length in H; [| now rewrite !strftime_suffix_length].
    now apply strftime_suffix_inj.
  - now rewrite !slength_app, !strftime_suffix_length.
Qed.

Lemma parent_root (p : Path) : root (parent p) = root p.
Proof. unfold parent. destruct (parts p); reflexivity. Qed.




(** C2, as the code has it: the log path is a function of the log
    directory, the playbook and the time at which the class body ran; its
    text ends with that time, printed to the microsecond, and [.log]; two
    runs whose classes were loaded at different times never share a path.
    The time the run itself records, [start_time_now], plays no part. *)
Theorem log_path_from_load_time (load1 load2 now1 now2 : datetime)
  (dir1 dir2 file1 file2 : string) :
  valid_datetime load1 -> valid_datetime load2 ->
  exists self1 self2,
    run_start load1 now1 dir1 file1 = Ok (tt, self1)
    /\ run_start load2 now2 dir2 file2 = Ok (tt, self2)
    /\ path self1 = Some (output_path dir1 file1 (strftime_suffix load1))
    /\ path self2 = Some (output_path dir2 file2 (strftime_suffix load2))
    /\ LOG_FILE_SUFFIX self1 = strftime_suffix load1
    /\ (exists pre,
           option_map path_str (path self1)
           = Some (pre ++ strftime_suffix load1 ++ ".log"))
    /\ (load1 <> load2 ->
        option_map path_str (path self1) <> option_map path_str (path self2)
        /\ path self1 <> path self2).
Proof.
  intros Hv1 Hv2.
  destruct (run_start_returns load1 now1 dir1 file1)
    as (self1 & Hrun1 & Hpath1 & _ & _ & Hsuffix1 & _).
  destruct (run_start_returns load2 now2 dir2 file2) as (self2 & Hrun2 & Hpath2 & _).
  exists self1, self2.
  assert (Hstr : load1 <> load2 ->
                 option_map path_str (path self1) <> option_map path_str (path self2)).
  { intros Hne Heq. rewrite Hpath1, Hpath2 in Heq. cbn [option_map] in Heq.
    assert (Heq' : path_str (output_path dir1 file1 (strftime_suffix load1))
                   = path_str (output_path dir2 file2 (strftime_suffix load2)))
      by congruence.
    apply Hne. eapply output_path_injective; eassumption. }
  split; [exact Hrun1 |]. split; [exact Hrun2 |].
  split; [exact Hpath1 |]. split; [exact Hpath2 |].
  split; [exact Hsuffix1 |]. split.
  - destruct (output_path_str dir1 file1 load1) as [pre Hpre].
    exists pre. rewrite Hpath1. cbn [option_map]. now rewrite Hpre.
  - intros Hne. split; [now apply Hstr |].
    intros Heq. apply (Hstr Hne). now rewrite Heq.
Qed.

Lemma log_path_from_load_time_witness :
  exists self1 self2,
    run_start (mk_datetime 2025 1 2 3 4 5 123456) (mk_datetime 2025 1 2 3 4 6 0)
      "./log" "site.yml" = Ok (tt, self1)
    /\ run_start (mk_datetime 2025 1 2 3 4 5 123457) (mk_datetime 2025 1 2 3 4 6 0)
         "./log" "site.yml" = Ok (tt, self2)
    /\ path self1 <> path self2.
Proof.
  destruct (log_path_from_load_time
              (mk_datetime 2025 1 2 3 4 5 123456) (mk_datetime 2025 1 2 3 4 5 123457)
              (mk_datetime 2025 1 2 3 4 6 0) (mk_datetime 2025 1 2 3 4 6 0)
              "./log" "./log" "site.yml" "site.yml")
    as (self1 & self2 & Hrun1 & Hrun2 & _ & _ & _ & _ & Hne).
  - unfold valid_datetime; simpl; lia.
  - unfold valid_datetime; simpl; lia.
  - exists self1, self2. split; [exact Hrun1 |]. split; [exact Hrun2 |].
    apply Hne. discriminate.
Defined.

(** Two runs on one loaded class, constructed an hour apart: their start
    times differ, their log paths are the same, and the suffix is not the
    start time of either. *)
Lemma same_class_same_log_path :
  exists self1 self2,
    run_start (mk_datetime 2025 1 2 3 4 5 123456) (mk_datetime 2025 1 2 3 4 6 0)
      "./log" "site.yml" = Ok (tt, self1)
    /\ run_start (mk_datetime 2025 1 2 3 4 5 123456) (mk_datetime 2025 1 2 4 4 6 0)
         "./log" "site.yml" = Ok (tt, self2)
    /\ start_time_now self1 <> start_time_now self2
    /\ start_time self1 <> start_time self2
    /\ path self1 = path self2
    /\ LOG_FILE_SUFFIX self1 <> strftime_suffix (start_time_now self1)
    /\ LOG_FILE_SUFFIX self2 <> strftime_suffix (start_time_now self2).
Proof.
  destruct (run_start_returns
              (mk_datetime 2025 1 2 3 4 5 123456) (mk_datetime 2025 1 2 3 4 6 0)
              "./log" "site.yml")
    as (self1 & Hrun1 & Hpath1 & _ & Hnow1 & Hsuffix1 & Hstart1).
  destruct (run_start_returns
              (mk_datetime 2025 1 2 3 4 5 123456) (mk_datetime 2025 1 2 4 4 6 0)
              "./log" "site.yml")
    as (self2 & Hrun2 & Hpath2 & _ & Hnow2 & Hsuffix2 & Hstart2).
  exists self1, self2. split; [exact Hrun1 |]. split; [exact Hrun2 |].
  rewrite Hpath1, Hpath2, Hsuffix1, Hsuffix2, Hnow1, Hnow2, Hstart1, Hstart2.
  split; [discriminate |]. split.
  - vm_compute. discriminate.
  - split; [reflexivity |]. split; vm_compute; discriminate.
Qed.



(** * Further properties *)

(** ** Masks leave no trace *)











(** ** A mask that fails *)

Section FailingMask.

Variable text_width : string -> Z.
Variable re_sub : string -> string -> string -> result string.
Variable json_value : Type.
Variable json_dumps : json_value -> result string.



End FailingMask.


(** ** The log file and its directory *)

Lemma removelast_snoc (A : Type) (l : list A) (x : A) : removelast (l ++ [x])%list = l.
Proof.
  induction l as [|a l IH]; [reflexivity |].
  simpl. rewrite IH. destruct (l ++ [x])%list eqn:E; [| reflexivity].
  now destruct l.
Qed.

Lemma last_snoc (l : list string) (x : string) : last (l ++ [x])%list "" = x.
Proof.
  induction l as [|a l IH]; [reflexivity |].
  simpl. rewrite IH. destruct (l ++ [x])%list eqn:E; [| reflexivity].
  now destruct l.
Qed.

Lemma output_path_parent (dir file_name : string) (d : datetime) :
  parent (output_path dir file_name (strftime_suffix d))
  = joinpath (parse_path dir) (parent (parse_path file_name)).
Proof.
  rewrite output_path_parts. unfold parent at 1. cbn [parts root].
  rewrite removelast_snoc.
  destruct (parts (joinpath (parse_path dir) (parent (parse_path file_name))) ++
            [log_file_name file_name (strftime_suffix d)])%list eqn:E.
  - now destruct (parts (joinpath (parse_path dir) (parent (parse_path file_name)))).
  - now destruct (joinpath (parse_path dir) (parent (parse_path file_name))).
Qed.

(** The plugin when the playbook has started. *)
Lemma run_start_state (load_now now : datetime) (dir file_name : string) :
  run_start load_now now dir file_name
  = Ok (tt, mk_CallbackModule (strftime_suffix load_now) (Some dir)
              (Some (output_path dir file_name (strftime_suffix load_now)))
              file_name now (strftime_time now)
              ["PLAYBOOK [" ++ file_name ++ "] " ++ CRLF]
              (Some (output_path dir file_name (strftime_suffix load_now)))
              [joinpath (parse_path dir) (parent (parse_path file_name))] []).
Proof. reflexivity. Qed.

Lemma output_path_name (dir file_name : string) (d : datetime) :
  name (output_path dir file_name (strftime_suffix d))
  = log_file_name file_name (strftime_suffix d).
Proof. rewrite output_path_parts. unfold name. cbn [parts]. apply last_snoc. Qed.

(** X3: whatever the log directory and the playbook, the one directory the
    plugin makes is the directory of the log file, and the log file is
    named after the stem of the playbook, a dash, the suffix and [.log],
    with no slash in the name. *)
Theorem log_file_in_made_directory (load_now now : datetime) (dir file_name : string) :
  exists self' p,
    run_start load_now now dir file_name = Ok (tt, self')
    /\ path self' = Some p
    /\ log_file self' = Some p
    /\ made_dirs self' = [parent p]
    /\ name p = stem (parse_path file_name) ++ "-" ++ strftime_suffix load_now ++ ".log"
    /\ has_char sep (name p) = false.
Proof.
  eexists. exists (output_path dir file_name (strftime_suffix load_now)).
  split; [apply run_start_state |]. cbn [path log_file made_dirs].
  split; [reflexivity |]. split; [reflexivity |].
  split; [now rewrite output_path_parent |].
  rewrite output_path_name. split; [reflexivity | apply log_file_name_no_sep].
Qed.

Lemma joinpath_rooted (p q : Path) : root q <> "" -> joinpath p q = q.
Proof.
  intros H. unfold joinpath. apply String.eqb_neq in H. now rewrite H.
Qed.

(** X4: for an absolute playbook path the log directory plays no part: the log
    file is made in the directory of the playbook itself. *)
Theorem absolute_playbook_ignores_log_directory (load_now now : datetime)
  (dir file_name : string) :
  root (parse_path file_name) <> "" ->
  exists self' p,
    run_start load_now now dir file_name = Ok (tt, self')
    /\ path self' = Some p
    /\ parent p = parent (parse_path file_name)
    /\ made_dirs self' = [parent (parse_path file_name)]
    /\ forall dir', output_path dir' file_name (strftime_suffix load_now) = p.
Proof.
  intros Habs.
  assert (Hjoin : forall dir',
             joinpath (parse_path dir') (parent (parse_path file_name))
             = parent (parse_path file_name)).
  { intros dir'. apply joinpath_rooted. now rewrite parent_root. }
  eexists. exists (output_path dir file_name (strftime_suffix load_now)).
  split; [apply run_start_state |]. cbn [path made_dirs].
  split; [reflexivity |].
  split; [now rewrite output_path_parent |].
  split; [now rewrite Hjoin |].
  intros dir'. unfold output_path. now rewrite !Hjoin.
Qed.

Lemma absolute_playbook_ignores_log_directory_witness :
  exists self' p,
    run_start (mk_datetime 2025 1 2 3 4 5 123456) (mk_datetime 2025 1 2 3 4 6 0)
      "./log" "/plays/site.yml" = Ok (tt, self')
    /\ path self' = Some p
    /\ parent p = mk_Path "/" ["plays"].
Proof.
  destruct (absolute_playbook_ignores_log_directory
              (mk_datetime 2025 1 2 3 4 5 123456) (mk_datetime 2025 1 2 3 4 6 0)
              "./log" "/plays/site.yml") as (self' & p & Hrun & Hpath & Hparent & _).
  - discriminate.
  - exists self', p. split; [exact Hrun |]. split; [exact Hpath |].
    rewrite Hparent. reflexivity.
Defined.

(** X5: a second playbook started on the same plugin object gets a path of its
    own in [self.path], but [logging.basicConfig] keeps the file of the
    first: the messages of the second playbook follow those of the first
    in the first log file. *)
Theorem second_playbook_keeps_first_log_file (load_now now : datetime)
  (dir file1 file2 : string) :
  exists self1 self2,
    run_start load_now now dir file1 = Ok (tt, self1)
    /\ v2_playbook_on_start file2 self1 = Ok (tt, self2)
    /\ path self2 = Some (output_path dir file2 (strftime_suffix load_now))
    /\ log_file self2 = Some (output_path dir file1 (strftime_suffix load_now))
    /\ logged self2 = ["PLAYBOOK [" ++ file1 ++ "] " ++ CRLF;
                       "PLAYBOOK [" ++ file2 ++ "] " ++ CRLF]
    /\ made_dirs self2 = [joinpath (parse_path dir) (parent (parse_path file1));
                          joinpath (parse_path dir) (parent (parse_path file2))].
Proof.
  exists (mk_CallbackModule (strftime_suffix load_now) (Some dir)
            (Some (output_path dir file1 (strftime_suffix load_now)))
            file1 now (strftime_time now)
            ["PLAYBOOK [" ++ file1 ++ "] " ++ CRLF]
            (Some (output_path dir file1 (strftime_suffix load_now)))
            [joinpath (parse_path dir) (parent (parse_path file1))] []).
  exists (mk_CallbackModule (strftime_suffix load_now) (Some dir)
            (Some (output_path dir file2 (strftime_suffix load_now)))
            file2 now (strftime_time now)
            ["PLAYBOOK [" ++ file1 ++ "] " ++ CRLF;
             "PLAYBOOK [" ++ file2 ++ "] " ++ CRLF]
            (Some (output_path dir file1 (strftime_suffix load_now)))
            [joinpath (parse_path dir) (parent (parse_path file1));
             joinpath (parse_path dir) (parent (parse_path file2))] []).
  repeat split.
Qed.

(** ** The report at the end of the run *)

Lemma write_time_calculation_returns (text_width : string -> Z)
  (end_time_now : datetime) (self : CallbackModule) :
  _write_time_calculation text_width end_time_now self
  = Ok (tt, add_banners
              [start_line text_width self; finish_line text_width end_time_now]
              (add_logged
                 [start_line text_width self; finish_line text_width end_time_now;
                  took_line (datetime_sub end_time_now (start_time_now self))]
                 self)).
Proof.
  unfold _write_time_calculation, bind, get_self, lift.
  rewrite !write_text_with_tab_returns. cbv beta iota zeta.
  unfold took_line, hours_minutes_seconds. cbv beta iota zeta.
  unfold logger_info, display_banner, bind, add_banners, add_logged,
    start_line, finish_line.
  cbn [LOG_FILE_SUFFIX log_directory path playbook start_time_now start_time
       logged log_file made_dirs banners].
  rewrite <- !app_assoc. reflexivity.
Qed.

Lemma sorted_length (l : list string) : List.length (sorted l) = List.length l.
Proof. symmetry. apply Permutation_length, sorted_perm. Qed.

Lemma stats_report_state (text_width : string -> Z) (stats : AggregateStats)
  (end_time_now : datetime) (self : CallbackModule) :
  exists self',
    v2_playbook_on_stats text_width stats end_time_now self = Ok (tt, self')
    /\ logged self'
       = List.app (logged self)
           (SEPARATOR :: play_recap_line text_width
            :: List.app (map (recap_text text_width stats) (sorted (processed stats)))
                 [start_line text_width self; finish_line text_width end_time_now;
                  took_line (datetime_sub end_time_now (start_time_now self))])
    /\ banners self'
       = List.app (banners self)
           [start_line text_width self; finish_line text_width end_time_now]
    /\ List.length (logged self')
       = (List.length (logged self) + 5 + List.length (processed stats))%nat
    /\ path self' = path self
    /\ log_file self' = log_file self.
Proof.
  eexists. split.
  - unfold v2_playbook_on_stats, bind, lift.
    rewrite !write_text_with_tab_returns. unfold logger_info, _write_summary.
    rewrite write_summary_lines, write_time_calculation_returns. reflexivity.
  - assert (Hlogged :
      logged (add_logged (map (recap_text text_width stats) (sorted (processed stats)))
                (add_logged [pad_text text_width (PStr "") 70 "*"
                             ++ pad_text text_width (PStr "PLAY RECAP ") 80 "*"]
                   (add_logged [SEPARATOR] self)))
      = List.app (logged self)
          (SEPARATOR :: play_recap_line text_width
           :: map (recap_text text_width stats) (sorted (processed stats)))).
    { cbn [logged add_logged]. rewrite <- !app_assoc. reflexivity. }
    cbn [logged banners path log_file add_banners add_logged
         LOG_FILE_SUFFIX log_directory playbook start_time_now start_time made_dirs]
      in Hlogged |- *.
    rewrite Hlogged.
    split; [| split; [reflexivity | split; [| split; reflexivity]]].
    + rewrite <- app_assoc. reflexivity.
    + rewrite !length_app. cbn [List.length]. rewrite length_map, sorted_length. lia.
Qed.


Lemma str_mul_nat_printable_length (c : ascii) (n : nat) :
  printable_char c = true ->
  printable (str_mul_nat (String c "") n) = true
  /\ String.length (str_mul_nat (String c "") n) = n.
Proof.
  intros Hc. split; [now apply printable_str_mul_nat | apply str_mul_nat_length_1].
Qed.

(** X7: where [get_text_width] counts one column per printable ASCII character,
    the banner of the recap is 70 asterisks, [PLAY RECAP ] and 69 asterisks:
    150 columns, the width of the separator logged above it. *)
Theorem play_recap_banner_width (text_width : string -> Z) (stats : AggregateStats)
  (end_time_now : datetime) (self : CallbackModule) :
  ascii_law text_width ->
  exists self' rest,
    v2_playbook_on_stats text_width stats end_time_now self = Ok (tt, self')
    /\ logged self'
       = List.app (logged self) (SEPARATOR :: play_recap_line text_width :: rest)
    /\ play_recap_line text_width
       = str_mul_nat "*" 70 ++ "PLAY RECAP " ++ str_mul_nat "*" 69
    /\ text_width (play_recap_line text_width) = 150
    /\ text_width SEPARATOR = 150.
Proof.
  intros Hlaw.
  destruct (stats_report_state text_width stats end_time_now self)
    as (self' & Hrun & Hlogged & _).
  exists self'. eexists. split; [exact Hrun |]. split; [exact Hlogged |].
  assert (Hline : play_recap_line text_width
                  = str_mul_nat "*" 70 ++ "PLAY RECAP " ++ str_mul_nat "*" 69).
  { unfold play_recap_line, pad_text. cbn [py_str].
    rewrite (Hlaw "" eq_refl), (Hlaw "PLAY RECAP " eq_refl). reflexivity. }
  split; [exact Hline |]. split.
  - rewrite Hline, Hlaw; reflexivity.
  - rewrite Hlaw; reflexivity.
Qed.

Lemma play_recap_banner_width_witness :
  ascii_columns (play_recap_line ascii_columns) = 150
  /\ ascii_columns SEPARATOR = 150.
Proof.
  destruct (play_recap_banner_width ascii_columns
              (mk_AggregateStats [] (fun _ => mk_Summary 0 0 0 0 0 0 0))
              (mk_datetime 2025 1 2 3 5 6 0)
              (__init__ (mk_datetime 2025 1 2 3 4 5 123456) (mk_datetime 2025 1 2 3 4 6 0))
              (fun s _ => eq_refl))
    as (self' & rest & _ & _ & _ & Hbanner & Hsep).
  split; [exact Hbanner | exact Hsep].
Defined.

(** ** Elapsed time within a day, and a clock set back *)

(** X8: for a run of less than a day the reported hours, minutes and seconds
    add up to the whole seconds that elapsed. *)
Theorem elapsed_exact_within_a_day (start finish : datetime) :
  0 <= wall_clock_seconds start finish < 86400 ->
  exists hours minutes seconds,
    hours_minutes_seconds (datetime_sub finish start) = (hours, minutes, seconds)
    /\ 3600 * hours + 60 * minutes + seconds = wall_clock_seconds start finish
    /\ 0 <= hours < 24 /\ 0 <= minutes < 60 /\ 0 <= seconds < 60.
Proof.
  intros H. unfold hours_minutes_seconds. rewrite datetime_sub_seconds.
  rewrite Z.mod_small by exact H.
  destruct (seconds_split _ H) as (Hsplit & Hh & Hm & Hs).
  do 3 eexists. split; [reflexivity |]. repeat split; lia.
Qed.

Lemma elapsed_exact_within_a_day_witness :
  exists hours minutes seconds,
    hours_minutes_seconds
      (datetime_sub (mk_datetime 2025 1 3 1 2 3 0) (mk_datetime 2025 1 2 23 59 58 500000))
    = (hours, minutes, seconds)
    /\ 3600 * hours + 60 * minutes + seconds = 3724.
Proof.
  destruct (elapsed_exact_within_a_day
              (mk_datetime 2025 1 2 23 59 58 500000) (mk_datetime 2025 1 3 1 2 3 0))
    as (hours & minutes & seconds & Hhms & Hsum & _).
  - vm_compute. split; [discriminate | reflexivity].
  - exists hours, minutes, seconds. split; [exact Hhms | exact Hsum].
Defined.

(** X9: when the clock is set back during the run, by at most a day, the end
    lies before the start and the plugin reports a day less the seconds the
    clock lost. *)
Theorem elapsed_clock_set_back (start finish : datetime) :
  -86400 <= wall_clock_seconds start finish < 0 ->
  exists hours minutes seconds,
    hours_minutes_seconds (datetime_sub finish start) = (hours, minutes, seconds)
    /\ 3600 * hours + 60 * minutes + seconds = 86400 + wall_clock_seconds start finish.
Proof.
  intros H. unfold hours_minutes_seconds. rewrite datetime_sub_seconds.
  assert (Hmod : wall_clock_seconds start finish mod 86400
                 = 86400 + wall_clock_seconds start finish).
  { symmetry. apply Z.mod_unique with (-1); lia. }
  rewrite Hmod.
  destruct (seconds_split (86400 + wall_clock_seconds start finish)) as (Hsplit & _);
    [lia |].
  do 3 eexists. split; [reflexivity |]. lia.
Qed.

Lemma elapsed_clock_set_back_witness :
  hours_minutes_seconds
    (datetime_sub (mk_datetime 2025 1 2 3 4 5 0) (mk_datetime 2025 1 2 3 4 6 0))
  = (23, 59, 59).
Proof.
  destruct (elapsed_clock_set_back
              (mk_datetime 2025 1 2 3 4 6 0) (mk_datetime 2025 1 2 3 4 5 0))
    as (hours & minutes & seconds & Hhms & _).
  - vm_compute. split; [discriminate | reflexivity].
  - reflexivity.
Defined.

(** ** Padding twice *)

Lemma str_mul_nat_add (s : string) (a b : nat) :
  str_mul_nat s (a + b) = str_mul_nat s a ++ str_mul_nat s b.
Proof.
  induction a as [|a IH]; simpl; [reflexivity |].
  now rewrite IH, sapp_assoc.
Qed.

(** X10: padding composes: on printable ASCII text, where [get_text_width]
    counts one column per character, padding to [width1] and then to a
    [width2] at least as large gives what padding to [width2] gives at
    once; padding twice to the same width changes nothing more. *)
Theorem pad_twice (text_width : string -> Z) (text : pyval) (width1 width2 : Z)
  (c : ascii) :
  ascii_law text_width ->
  printable (py_str text) = true -> printable_char c = true ->
  width1 <= width2 ->
  exists once,
    _write_text_with_tab text_width text width1 (String c "") = Ok once
    /\ _write_text_with_tab text_width (PStr once) width2 (String c "")
       = _write_text_with_tab text_width text width2 (String c "").
Proof.
  intros Hlaw Hp Hc Hle. eexists. split; [apply write_text_with_tab_returns |].
  rewrite !write_text_with_tab_returns. f_equal.
  destruct (Z_le_gt_dec (text_width (py_str text)) width1) as [Hfit | Hwide].
  - unfold pad_text at 1 3. cbn [py_str].
    rewrite (pad_text_fits text_width text width1 c Hlaw Hp Hc Hfit).
    unfold pad_text. rewrite sapp_assoc, <- str_mul_nat_add. do 2 f_equal. lia.
  - rewrite (pad_text_wider text_width text width1) by lia.
    reflexivity.
Qed.

Lemma pad_twice_witness :
  _write_text_with_tab ascii_columns (PStr "db1   ") 8 " "
  = _write_text_with_tab ascii_columns (PStr "db1") 8 " ".
Proof.
  destruct (pad_twice ascii_columns (PStr "db1") 6 8 " "%char
              (fun s _ => eq_refl) eq_refl eq_refl) as (once & Honce & Htwice).
  - vm_compute. discriminate.
  - rewrite write_text_with_tab_returns in Honce. injection Honce as <-.
    exact Htwice.
Defined.

(** ** The recap is a table *)

Lemma short_decimals : forallb short_decimal (seq 0 (Z.to_nat 10000)) = true.
Proof. vm_compute. reflexivity. Qed.

Lemma small_tally_str (n : Z) :
  small_tally n ->
  printable (str_of_int n) = true /\ (String.length (str_of_int n) <= 4)%nat.
Proof.
  intros [H0 H1].
  pose proof short_decimals as Hall. rewrite forallb_forall in Hall.
  specialize (Hall (Z.to_nat n)). rewrite in_seq in Hall.
  assert (Hn : short_decimal (Z.to_nat n) = true) by (apply Hall; lia).
  unfold short_decimal in Hn. rewrite Z2Nat.id in Hn by exact H0.
  apply andb_true_iff in Hn as [Hp Hl]. split; [exact Hp |].
  now apply Nat.leb_le.
Qed.

Lemma pad_text_column (text_width : string -> Z) (text : pyval) (width : nat) :
  ascii_law text_width ->
  printable (py_str text) = true ->
  (String.length (py_str text) <= width)%nat ->
  printable (pad_text text_width text (Z.of_nat width) " ") = true
  /\ String.length (pad_text text_width text (Z.of_nat width) " ") = width.
Proof.
  intros Hlaw Hp Hlen. unfold pad_text. rewrite (Hlaw _ Hp). split.
  - rewrite printable_app, Hp. now apply printable_str_mul_nat.
  - rewrite slength_app, str_mul_nat_length_1. lia.
Qed.

(** X11: where [get_text_width] counts one column per printable ASCII character,
    the recap line of a host with a printable name of at most 20 characters
    and tallies of at most four digits is exactly 117 columns wide: the
    recap lines of such hosts line up as the rows of one table. *)
Theorem recap_lines_line_up (text_width : string -> Z) (stats : AggregateStats)
  (host : string) :
  ascii_law text_width ->
  printable host = true -> (String.length host <= 20)%nat ->
  small_tallies (summarize stats host) ->
  printable (recap_text text_width stats host) = true
  /\ text_width (recap_text text_width stats host) = 117.
Proof.
  intros Hlaw Hp Hlen (Hok & Hch & Hun & Hfa & Hsk & Hre & Hig).
  assert (Hcol : forall n, small_tally n ->
            printable (pad_text text_width (PInt n) 4 " ") = true
            /\ String.length (pad_text text_width (PInt n) 4 " ") = 4%nat).
  { intros n Hn. destruct (small_tally_str n Hn) as [Hpn Hln].
    apply (pad_text_column text_width (PInt n) 4 Hlaw Hpn Hln). }
  destruct (pad_text_column text_width (PStr host) 20 Hlaw Hp Hlen) as [Hph Hlh].
  destruct (Hcol _ Hok) as [P1 L1]. destruct (Hcol _ Hch) as [P2 L2].
  destruct (Hcol _ Hun) as [P3 L3]. destruct (Hcol _ Hfa) as [P4 L4].
  destruct (Hcol _ Hsk) as [P5 L5]. destruct (Hcol _ Hre) as [P6 L6].
  destruct (Hcol _ Hig) as [P7 L7].
  assert (Hprint : printable (recap_text text_width stats host) = true).
  { unfold recap_text, RECAP_FORMAT. cbv zeta.
    change (Z.of_nat 20) with 20 in Hph. change (Z.of_nat 4) with 4 in *.
    rewrite !printable_app, Hph, P1, P2, P3, P4, P5, P6, P7. reflexivity. }
  split; [exact Hprint |].
  rewrite (Hlaw _ Hprint). unfold recap_text, RECAP_FORMAT. cbv zeta.
  change (Z.of_nat 20) with 20 in Hlh. change (Z.of_nat 4) with 4 in *.
  rewrite !slength_app, Hlh, L1, L2, L3, L4, L5, L6, L7. reflexivity.
Qed.

Lemma recap_lines_line_up_witness :
  ascii_columns
    (recap_text ascii_columns
       (mk_AggregateStats ["db1"] (fun _ => mk_Summary 5 1 0 0 2 0 0)) "db1") = 117.
Proof.
  apply (recap_lines_line_up ascii_columns
           (mk_AggregateStats ["db1"] (fun _ => mk_Summary 5 1 0 0 2 0 0)) "db1").
  - intros s _. reflexivity.
  - reflexivity.
  - simpl. lia.
  - unfold small_tallies, small_tally. simpl. lia.
Defined.
